(* Shallow embedding of src/handler.py (TGMessagePredict): the per-user
   history of the last messages, the backfill loop [preload_history] and the
   live loop [consume_and_process] with its prediction trigger.

   Conventions of the model:
   - Python [str] values are kept as their UTF-8 encoding, one [ascii] per
     byte; the marker and the JSON keys are ASCII.
   - A Python dict is an association list in insertion order (the order of
     [dict.items()]); [dict_set] updates a present key in place and appends a
     new key at the end, as CPython does.
   - JSON numbers are integers ([Z]); fractions and exponents are not part of
     the model.
   - Exceptions that escape a loop are the [Crash] outcome of a step: the
     enclosing [try ... finally] stops the consumer and the exception ends
     the process. *)

From Stdlib Require Import String Ascii List ZArith Bool Lia.
From Stdlib Require Import Strings.Byte.
From Stdlib Require Import Floats.SpecFloat.
Import ListNotations.
Open Scope string_scope.
Open Scope Z_scope.

(* ------------------------------------------------------------------ *)
(** * JSON values and Python dicts *)

Local Set Warnings "-register-all".

Inductive json : Type :=
| JNull
| JBool (b : bool)
| JNum (z : Z)
| JStr (s : string)
| JArr (xs : list json)
| JObj (fields : list (string * json)).

Section Dict.
Context {V : Type}.

(** [d.get(k)] *)
Fixpoint dict_get (d : list (string * V)) (k : string) : option V :=
  match d with
  | [] => None
  | (k', v) :: t => if String.eqb k' k then Some v else dict_get t k
  end.

(** [d.get(k, dflt)] *)
Definition dict_get_default (d : list (string * V)) (k : string) (dflt : V) : V :=
  match dict_get d k with Some v => v | None => dflt end.

(** [d[k] = v] *)
Fixpoint dict_set (d : list (string * V)) (k : string) (v : V) : list (string * V) :=
  match d with
  | [] => [(k, v)]
  | (k', v') :: t =>
      if String.eqb k' k then (k, v) :: t else (k', v') :: dict_set t k v
  end.
End Dict.

(* ------------------------------------------------------------------ *)
(** * [str(x)] for the JSON values a record field can hold *)

Fixpoint uint_digits (d : Decimal.uint) : string :=
  match d with
  | Decimal.Nil => ""
  | Decimal.D0 d => String "0" (uint_digits d)
  | Decimal.D1 d => String "1" (uint_digits d)
  | Decimal.D2 d => String "2" (uint_digits d)
  | Decimal.D3 d => String "3" (uint_digits d)
  | Decimal.D4 d => String "4" (uint_digits d)
  | Decimal.D5 d => String "5" (uint_digits d)
  | Decimal.D6 d => String "6" (uint_digits d)
  | Decimal.D7 d => String "7" (uint_digits d)
  | Decimal.D8 d => String "8" (uint_digits d)
  | Decimal.D9 d => String "9" (uint_digits d)
  end.

(** [str(n)] for a Python int: its decimal digits. *)
Definition int_str (z : Z) : string :=
  match Z.to_int z with
  | Decimal.Pos d => uint_digits d
  | Decimal.Neg d => "-" ++ uint_digits d
  end.

(** [repr] of a JSON value as Python prints the decoded object (string
    escapes inside containers are not modelled). *)
Fixpoint py_repr (j : json) : string :=
  match j with
  | JNull => "None"
  | JBool true => "True"
  | JBool false => "False"
  | JNum z => int_str z
  | JStr s => "'" ++ s ++ "'"
  | JArr xs =>
      "[" ++
      (fix go (l : list json) : string :=
         match l with
         | [] => ""
         | [x] => py_repr x
         | x :: t => py_repr x ++ ", " ++ go t
         end) xs ++ "]"
  | JObj fs =>
      "{" ++
      (fix go (l : list (string * json)) : string :=
         match l with
         | [] => ""
         | [(k, x)] => "'" ++ k ++ "': " ++ py_repr x
         | (k, x) :: t => "'" ++ k ++ "': " ++ py_repr x ++ ", " ++ go t
         end) fs ++ "}"
  end.

(** [str(x)]: a string is itself, anything else its repr. *)
Definition py_str (j : json) : string :=
  match j with
  | JStr s => s
  | _ => py_repr j
  end.

(* ------------------------------------------------------------------ *)
(** * Strings: containment and the mention prefix *)

(** [BOT_MENTION] *)
Definition BOT_MENTION : string := "@music_recommender_iss_bot".

Fixpoint strip_prefix (p s : string) : option string :=
  match p, s with
  | EmptyString, _ => Some s
  | String c p', String d s' =>
      if Ascii.eqb c d then strip_prefix p' s' else None
  | String _ _, EmptyString => None
  end.

Definition is_prefix (p s : string) : bool :=
  match strip_prefix p s with Some _ => true | None => false end.

(** [p in s]: substring containment. *)
Fixpoint str_contains (p s : string) : bool :=
  is_prefix p s ||
  match s with
  | EmptyString => false
  | String _ s' => str_contains p s'
  end.

(** The code points Python's [\s] matches in a [str] pattern (those for
    which [str.isspace()] holds), each as its UTF-8 encoding. *)
Definition ch (n : nat) : string := String (ascii_of_nat n) EmptyString.

Definition py_space_units : list string :=
  map ch [9; 10; 11; 12; 13; 28; 29; 30; 31; 32]%nat ++
  [ch 194 ++ ch 133; ch 194 ++ ch 160; ch 225 ++ ch 154 ++ ch 128] ++
  map (fun n => ch 226 ++ ch 128 ++ ch n)
      [128; 129; 130; 131; 132; 133; 134; 135; 136; 137; 138; 168; 169; 175]%nat ++
  [ch 226 ++ ch 129 ++ ch 159; ch 227 ++ ch 128 ++ ch 128].

(** One match of [\s] at the start of [s]: the rest after it. *)
Fixpoint space_unit_in (us : list string) (s : string) : option string :=
  match us with
  | [] => None
  | u :: us' =>
      match strip_prefix u s with
      | Some r => Some r
      | None => space_unit_in us' s
      end
  end.

Definition space_unit_at (s : string) : option string :=
  space_unit_in py_space_units s.

(** Greedy [\s*]: every match consumes at least one byte, so [length s]
    rounds are enough. *)
Fixpoint strip_ws_fuel (n : nat) (s : string) : string :=
  match n with
  | O => s
  | S n' =>
      match space_unit_at s with
      | Some r => strip_ws_fuel n' r
      | None => s
      end
  end.

Definition strip_ws (s : string) : string := strip_ws_fuel (String.length s) s.

(** [re.sub(rf'^{re.escape(BOT_MENTION)}\s*', '', m)]: the pattern is
    anchored at the start of the string (no MULTILINE flag), so it matches at
    most once, at position 0. *)
Definition sub_mention (m : string) : string :=
  match strip_prefix BOT_MENTION m with
  | Some r => strip_ws r
  | None => m
  end.

(* ------------------------------------------------------------------ *)
(** * [bytes.decode("utf-8")] *)

Definition byte_in (b : byte) (lo hi : nat) : bool :=
  Nat.leb lo (Byte.to_nat b) && Nat.leb (Byte.to_nat b) hi.

(** Strict UTF-8 as Python's codec checks it: no overlong forms, no
    surrogates, nothing above U+10FFFF. *)
Fixpoint utf8_valid (l : list byte) : bool :=
  match l with
  | [] => true
  | b :: t =>
      if byte_in b 0 127 then utf8_valid t
      else if byte_in b 194 223 then
        match t with
        | c1 :: t' => byte_in c1 128 191 && utf8_valid t'
        | _ => false
        end
      else if byte_in b 224 239 then
        match t with
        | c1 :: c2 :: t' =>
            (if byte_in b 224 224 then byte_in c1 160 191
             else if byte_in b 237 237 then byte_in c1 128 159
             else byte_in c1 128 191)
            && byte_in c2 128 191 && utf8_valid t'
        | _ => false
        end
      else if byte_in b 240 244 then
        match t with
        | c1 :: c2 :: c3 :: t' =>
            (if byte_in b 240 240 then byte_in c1 144 191
             else if byte_in b 244 244 then byte_in c1 128 143
             else byte_in c1 128 191)
            && byte_in c2 128 191 && byte_in c3 128 191 && utf8_valid t'
        | _ => false
        end
      else false
  end.

(* ------------------------------------------------------------------ *)
(** * [user_history]: a defaultdict of [deque(maxlen=10)] *)

Definition maxlen : nat := 10.

(** [d.append(x)] on a deque with [maxlen]: when full, the leftmost
    (oldest) entry is dropped. *)
Definition deque_append (d : list string) (x : string) : list string :=
  let d' := (d ++ [x])%list in
  if Nat.ltb maxlen (List.length d') then tl d' else d'.

Definition history_t := list (string * list string).

(** [user_history[uid]]: a missing key is inserted with an empty deque. *)
Definition hist_entry (h : history_t) (uid : string) : history_t * list string :=
  match dict_get h uid with
  | Some d => (h, d)
  | None => (dict_set h uid [], [])
  end.

(** [user_history[uid].append(text)] *)
Definition hist_append (h : history_t) (uid text : string) : history_t :=
  let (h1, d) := hist_entry h uid in
  dict_set h1 uid (deque_append d text).

(** The buffered texts of [uid], oldest first ([list(user_history[uid])]). *)
Definition snapshot (h : history_t) (uid : string) : list string :=
  snd (hist_entry h uid).

(* ------------------------------------------------------------------ *)
(** * Records, collaborators and the observable trace *)

(** [WATCH_CHAT_IDS = {-4714765877}] *)
Definition WATCH_CHAT_ID : Z := -4714765877.

(** [chat_id in WATCH_CHAT_IDS]; [None] is the [TypeError] raised for an
    unhashable value (a list or a dict). [True == 1] and [False == 0], and
    neither equals the watched id. *)
Definition in_watch (chat_id : json) : option bool :=
  match chat_id with
  | JArr _ | JObj _ => None
  | JNum z => Some (Z.eqb z WATCH_CHAT_ID)
  | _ => Some false
  end.

(** [x is None] *)
Definition py_is_none (j : json) : bool :=
  match j with JNull => true | _ => false end.

(** [isinstance(x, str)] *)
Definition py_is_str (j : json) : bool :=
  match j with JStr _ => true | _ => false end.

Definition ms_per_day : Z := 86400000.

(** A calendar date [(year, month, day)]. *)
Definition date := (Z * Z * Z)%type.

Definition date_eqb (a b : date) : bool :=
  let '(y1, m1, d1) := a in
  let '(y2, m2, d2) := b in
  Z.eqb y1 y2 && Z.eqb m1 m2 && Z.eqb d1 d2.

(** A Python number as a score holds it: an [int], or a [float]
    (IEEE 754 binary64, with its zeros, infinities and NaN). *)
Inductive num : Type :=
| NInt (z : Z)
| NFloat (f : spec_float).

(** A value in the object [resp.json()] returns. JSON [true] and [false]
    are Python's [True] and [False], which add as the ints 1 and 0; a
    string, [null], a list or an object is [SOther]. *)
Inductive score : Type :=
| SNum (n : num)
| SOther.

(** [r.items()] of a response object, in order; its keys are distinct, as
    in any Python dict. *)
Definition ScoreMap := list (string * score).

(** What [resp.json()] returns: an object, or another JSON value (which
    has no [items]). *)
Inductive response : Type :=
| RObj (items : ScoreMap)
| RNotObj.

(** What the world supplies while one message is processed:
    - [local_date ts_ms]: the [(year, month, day)] of
      [datetime.fromtimestamp(ts_ms / 1000, tz=timezone.utc).astimezone()]
      under the process's time zone rules (daylight saving included), or
      [None] when that raises (a timestamp outside the range [datetime]
      supports);
    - [now_date]: the [(year, month, day)] of [datetime.now().astimezone()];
    - [predict t]: the outcome of [call_predict(t)] (translation and
      scoring; [None] when it raises);
    - [send_ack]: whether the broker acknowledges [send_and_wait]. *)
Record env := {
  local_date : Z -> option date;
  now_date : date;
  predict : string -> option response;
  send_ack : bool
}.

(** [is_same_local_day(ts_ms)]; [None] when [datetime.fromtimestamp] (or
    [astimezone]) raises. *)
Definition is_same_local_day (e : env) (ts_ms : Z) : option bool :=
  match local_date e ts_ms with
  | Some dt => Some (date_eqb dt (now_date e))
  | None => None
  end.

(** A Kafka message: [msg.value] (possibly a null value) and
    [msg.timestamp]. *)
Record msg := {
  value : option (list byte);
  timestamp : Z
}.

Inductive exn : Type :=
| AttributeError
| TypeError
| UnicodeDecodeError
| KafkaError
| DateRangeError    (* [ValueError], [OverflowError] or [OSError] of [datetime.fromtimestamp] *)
| OverflowError.    (* [float(n)] of an int beyond the float range *)

(** A value of the record sent: a number or the user id. *)
Inductive outval : Type :=
| ONum (n : num)
| OStr (s : string).

(** Observable effects, in order: the prints and the outbound calls. *)
Inductive event : Type :=
| EvNonJson                                       (* "ignore non-json message" *)
| EvPreloaded (uid text : string)                 (* "preloaded history messages" *)
| EvIgnored (rec : json)                          (* "ignore invalid message" *)
| EvPreloadDone                                   (* "history messages preloaded" *)
| EvTriggered (uid : string) (clean_batch : list string)
| EvCall (text : string)                          (* one [call_predict(t)] *)
| EvPredictFailed                                 (* "prediction failed" *)
| EvSend (record : list (string * outval)).         (* [prod.send_and_wait] *)

Record state := {
  history : history_t;
  trace : list event
}.

Inductive result : Type :=
| Ok (st : state)
| Crash (e : exn) (st : state).

Definition res_state (r : result) : state :=
  match r with Ok st => st | Crash _ st => st end.

Definition log (st : state) (ev : event) : state :=
  {| history := history st; trace := (trace st ++ [ev])%list |}.

Definition set_history (st : state) (h : history_t) : state :=
  {| history := h; trace := trace st |}.

(* ------------------------------------------------------------------ *)
(** * Aggregation *)

(** [asyncio.gather(...)] with [return_exceptions=False]: the results in
    order, or the exception of a failed call. *)
Fixpoint gather (f : string -> option response) (ts : list string)
  : option (list response) :=
  match ts with
  | [] => Some []
  | t :: r =>
      match f t, gather f r with
      | Some x, Some xs => Some (x :: xs)
      | _, _ => None
      end
  end.

(** Float addition, rounded to nearest with ties to even. *)
Definition f64_add : spec_float -> spec_float -> spec_float := SFadd 53 1024.

(** [float(n)] of an int: rounded to nearest with ties to even; [None] is
    the [OverflowError] of an int whose rounding exceeds the largest float. *)
Definition float_of_int (z : Z) : option spec_float :=
  match binary_normalize 53 1024 z 0 false with
  | S754_infinity _ => None
  | f => Some f
  end.

(** [a + v], where [a] is [agg.get(k, 0)]: exact on two ints; an int meeting
    a float is converted first; a value that is not a number raises
    [TypeError]. *)
Definition num_add (a : num) (v : score) : exn + num :=
  match v with
  | SOther => inl TypeError
  | SNum b =>
      match a, b with
      | NInt x, NInt y => inr (NInt (x + y))
      | NInt x, NFloat g =>
          match float_of_int x with
          | Some fx => inr (NFloat (f64_add fx g))
          | None => inl OverflowError
          end
      | NFloat f, NInt y =>
          match float_of_int y with
          | Some fy => inr (NFloat (f64_add f fy))
          | None => inl OverflowError
          end
      | NFloat f, NFloat g => inr (NFloat (f64_add f g))
      end
  end.

(** [for k, v in r.items(): agg[k] = agg.get(k, 0) + v] *)
Fixpoint add_fields (agg : list (string * num)) (r : ScoreMap)
  : exn + list (string * num) :=
  match r with
  | [] => inr agg
  | (k, v) :: t =>
      match num_add (dict_get_default agg k (NInt 0)) v with
      | inl x => inl x
      | inr n => add_fields (dict_set agg k n) t
      end
  end.

(** [for r in results: ...]; [r.items()] of a value that is not an object
    raises [AttributeError]. *)
Fixpoint aggregate_from (agg : list (string * num)) (results : list response)
  : exn + list (string * num) :=
  match results with
  | [] => inr agg
  | RObj r :: t =>
      match add_fields agg r with
      | inl x => inl x
      | inr agg' => aggregate_from agg' t
      end
  | RNotObj :: _ => inl AttributeError
  end.

(** [agg = {}; for r in results: ...] *)
Definition aggregate (results : list response) : exn + list (string * num) :=
  aggregate_from [] results.

(** [agg["user_id"] = user_id] *)
Definition output_record (uid : string) (agg : list (string * num)) : list (string * outval) :=
  dict_set (map (fun kv => (fst kv, ONum (snd kv))) agg) "user_id" (OStr uid).

(** The body of [if BOT_MENTION in text:]. *)
Definition trigger (st : state) (uid : string) (e : env) : result :=
  let (h1, batch) := hist_entry (history st) uid in
  let clean_batch := map sub_mention batch in
  let st1 := {| history := h1;
                trace := (trace st ++ EvTriggered uid clean_batch :: map EvCall clean_batch)%list |} in
  match gather (predict e) clean_batch with
  | None => Ok (log st1 EvPredictFailed)
  | Some results =>
      (* lines 157-162 run outside the [try]: an exception ends the loop *)
      match aggregate results with
      | inl x => Crash x st1
      | inr agg =>
          let st2 := log st1 (EvSend (output_record uid agg)) in
          if send_ack e then Ok st2 else Crash KafkaError st2
      end
  end.

(* ------------------------------------------------------------------ *)
(** * The two consumer loops *)

(** Outcome of [json.loads(msg.value.decode("utf-8"))]. *)
Inductive parsed : Type :=
| PRaise (e : exn)    (* escapes the [except (json.JSONDecodeError, TypeError)] *)
| PNotJson            (* caught: the message is skipped *)
| PJson (j : json).

Section Loops.
(** [json.loads] on a decoded string; [None] is a [JSONDecodeError]. *)
Variable json_loads : string -> option json.

(** [msg.value.decode("utf-8")] then [json.loads]: a null value has no
    [decode] ([AttributeError]), bytes that are not UTF-8 raise
    [UnicodeDecodeError]; neither is among the exceptions caught. *)
Definition parse_value (v : option (list byte)) : parsed :=
  match v with
  | None => PRaise AttributeError
  | Some bs =>
      if utf8_valid bs then
        match json_loads (string_of_list_byte bs) with
        | Some j => PJson j
        | None => PNotJson
        end
      else PRaise UnicodeDecodeError
  end.

(** [rec.get("chat_id")] *)
Definition rec_chat_id (rec : list (string * json)) : json :=
  dict_get_default rec "chat_id" JNull.

(** [str(rec.get("user_id"))] *)
Definition rec_user_id (rec : list (string * json)) : string :=
  py_str (dict_get_default rec "user_id" JNull).

(** [rec.get("message", "")] *)
Definition rec_text (rec : list (string * json)) : json :=
  dict_get_default rec "message" (JStr "").

(** One message of [preload_history] (lines 95-112). *)
Definition preload_step (st : state) (m : msg) (e : env) : result :=
  match parse_value (value m) with
  | PRaise x => Crash x st
  | PNotJson => Ok (log st EvNonJson)
  | PJson (JObj rec) =>
      let chat_id := rec_chat_id rec in
      let user_id := rec_user_id rec in
      let text := rec_text rec in
      match in_watch chat_id with
      | None => Crash TypeError st
      | Some w =>
          match w, text with
          | true, JStr t =>
              (* the [and] chain evaluates [is_same_local_day] last *)
              if negb (py_is_none (JStr user_id)) then
                match is_same_local_day e (timestamp m) with
                | None => Crash DateRangeError st
                | Some true =>
                    Ok (log (set_history st (hist_append (history st) user_id t))
                            (EvPreloaded user_id t))
                | Some false => Ok (log st (EvIgnored (JObj rec)))
                end
              else Ok (log st (EvIgnored (JObj rec)))
          | _, _ => Ok (log st (EvIgnored (JObj rec)))
          end
      end
  | PJson _ => Crash AttributeError st    (* [rec.get] on a non-dict *)
  end.

Fixpoint preload_msgs (st : state) (ms : list (msg * env)) : result :=
  match ms with
  | [] => Ok st
  | (m, e) :: t =>
      match preload_step st m e with
      | Ok st' => preload_msgs st' t
      | Crash x st' => Crash x st'
      end
  end.

(** A [getmany] batch: the message lists of the partitions. *)
Definition batch := list (list (msg * env)).

(** [not any(batch.values())] *)
Definition batch_empty (b : batch) : bool :=
  forallb (fun ms => match ms with [] => true | _ => false end) b.

(** [preload_history]: the successive [getmany] results; an exhausted
    list stands for the empty batch that ends the phase. *)
Fixpoint preload_loop (st : state) (bs : list batch) : result :=
  match bs with
  | [] => Ok (log st EvPreloadDone)
  | b :: bs' =>
      if batch_empty b then Ok (log st EvPreloadDone)
      else
        match preload_msgs st (concat b) with
        | Ok st' => preload_loop st' bs'
        | Crash x st' => Crash x st'
        end
  end.

(** One message of [consume_and_process] (lines 127-163). *)
Definition live_step (st : state) (m : msg) (e : env) : result :=
  match parse_value (value m) with
  | PRaise x => Crash x st
  | PNotJson => Ok (log st EvNonJson)
  | PJson (JObj rec) =>
      let chat_id := rec_chat_id rec in
      let user_id := rec_user_id rec in
      let text := rec_text rec in
      match in_watch chat_id with
      | None => Crash TypeError st
      | Some w =>
          if negb w || py_is_none (JStr user_id) || negb (py_is_str text) then Ok st
          else
            match text with
            | JStr t =>
                match is_same_local_day e (timestamp m) with
                | None => Crash DateRangeError st
                | Some today =>
                    let st1 :=
                      if today then set_history st (hist_append (history st) user_id t)
                      else st in
                    if str_contains BOT_MENTION t then trigger st1 user_id e else Ok st1
                end
            | _ => Ok st
            end
      end
  | PJson _ => Crash AttributeError st    (* [rec.get] on a non-dict *)
  end.

(** [async for msg in cons: ...]: an exception leaves the loop. *)
Fixpoint live_loop (st : state) (ms : list (msg * env)) : result :=
  match ms with
  | [] => Ok st
  | (m, e) :: t =>
      match live_step st m e with
      | Ok st' => live_loop st' t
      | Crash x st' => Crash x st'
      end
  end.
End Loops.

(* ------------------------------------------------------------------ *)
(** * A JSON reader for concrete runs

    The loops take [json.loads] as a parameter; the theorems hold for any
    reader. [json_loads_subset] agrees with [json.loads] on the payloads
    it accepts (objects, arrays, strings with the escapes [\\], [\/],
    [\n], [\t] and the escaped quote, integers, [true], [false], [null]) and
    is used to run the loops on concrete payloads. *)

Definition dquote : ascii := ascii_of_nat 34.
Definition bslash : ascii := ascii_of_nat 92.

Definition is_json_ws (c : ascii) : bool :=
  Ascii.eqb c " " || Ascii.eqb c (ascii_of_nat 9) ||
  Ascii.eqb c (ascii_of_nat 10) || Ascii.eqb c (ascii_of_nat 13).

Fixpoint skip_json_ws (s : string) : string :=
  match s with
  | String c r => if is_json_ws c then skip_json_ws r else s
  | EmptyString => s
  end.

(** The body of a string literal, after its opening quote. *)
Fixpoint lex_str (s : string) : option (string * string) :=
  match s with
  | EmptyString => None
  | String c r =>
      if Ascii.eqb c dquote then Some (EmptyString, r)
      else if Ascii.eqb c bslash then
        match r with
        | String e r' =>
            let c' := if Ascii.eqb e "n" then Some (ascii_of_nat 10)
                      else if Ascii.eqb e "t" then Some (ascii_of_nat 9)
                      else if Ascii.eqb e dquote || Ascii.eqb e bslash
                              || Ascii.eqb e "/" then Some e
                      else None in
            match c', lex_str r' with
            | Some c'', Some (body, rest) => Some (String c'' body, rest)
            | _, _ => None
            end
        | EmptyString => None
        end
      else
        match lex_str r with
        | Some (body, rest) => Some (String c body, rest)
        | None => None
        end
  end.

Definition digit_val (c : ascii) : option Z :=
  let n := nat_of_ascii c in
  if Nat.leb 48 n && Nat.leb n 57 then Some (Z.of_nat n - 48) else None.

(** Decimal digits after the first one; a fraction or an exponent is
    outside the subset. *)
Fixpoint lex_digits (acc : Z) (s : string) : option (Z * string) :=
  match s with
  | String c r =>
      match digit_val c with
      | Some d => lex_digits (10 * acc + d) r
      | None =>
          if Ascii.eqb c "." || Ascii.eqb c "e" || Ascii.eqb c "E" then None
          else Some (acc, s)
      end
  | EmptyString => Some (acc, s)
  end.

Definition lex_int (s : string) : option (Z * string) :=
  let '(neg, s1) :=
    match s with
    | String c r => if Ascii.eqb c "-" then (true, r) else (false, s)
    | EmptyString => (false, s)
    end in
  match s1 with
  | String c r =>
      match digit_val c with
      | Some d =>
          match lex_digits d r with
          | Some (z, rest) => Some (if neg then - z else z, rest)
          | None => None
          end
      | None => None
      end
  | EmptyString => None
  end.

Fixpoint read_value (fuel : nat) (s : string) : option (json * string) :=
  match fuel with
  | O => None
  | S n =>
      match skip_json_ws s with
      | EmptyString => None
      | String c r as s0 =>
          if Ascii.eqb c dquote then
            match lex_str r with
            | Some (body, rest) => Some (JStr body, rest)
            | None => None
            end
          else if Ascii.eqb c "[" then
            match skip_json_ws r with
            | String "]" r' => Some (JArr [], r')
            | _ =>
                (fix elems (k : nat) (t : string) (acc : list json) :=
                   match k with
                   | O => None
                   | S k' =>
                       match read_value n t with
                       | Some (v, t1) =>
                           match skip_json_ws t1 with
                           | String "," t2 => elems k' t2 (acc ++ [v])%list
                           | String "]" t2 => Some (JArr (acc ++ [v])%list, t2)
                           | _ => None
                           end
                       | None => None
                       end
                   end) n r []
            end
          else if Ascii.eqb c "{" then
            match skip_json_ws r with
            | String "}" r' => Some (JObj [], r')
            | _ =>
                (fix members (k : nat) (t : string) (acc : list (string * json)) :=
                   match k with
                   | O => None
                   | S k' =>
                       match skip_json_ws t with
                       | String q t0 =>
                           if Ascii.eqb q dquote then
                             match lex_str t0 with
                             | Some (key, t1) =>
                                 match skip_json_ws t1 with
                                 | String ":" t2 =>
                                     match read_value n t2 with
                                     | Some (v, t3) =>
                                         let acc' := dict_set acc key v in
                                         match skip_json_ws t3 with
                                         | String "," t4 => members k' t4 acc'
                                         | String "}" t4 => Some (JObj acc', t4)
                                         | _ => None
                                         end
                                     | None => None
                                     end
                                 | _ => None
                                 end
                             | None => None
                             end
                           else None
                       | EmptyString => None
                       end
                   end) n r []
            end
          else
            match strip_prefix "null" s0, strip_prefix "true" s0,
                  strip_prefix "false" s0 with
            | Some rest, _, _ => Some (JNull, rest)
            | _, Some rest, _ => Some (JBool true, rest)
            | _, _, Some rest => Some (JBool false, rest)
            | None, None, None =>
                match lex_int s0 with
                | Some (z, rest) => Some (JNum z, rest)
                | None => None
                end
            end
      end
  end.

Definition json_loads_subset (s : string) : option json :=
  match read_value (S (String.length s)) s with
  | Some (v, rest) =>
      match skip_json_ws rest with EmptyString => Some v | _ => None end
  | None => None
  end.

(** Payload text written with [']: each one stands for a double quote. *)
Fixpoint sq (s : string) : string :=
  match s with
  | EmptyString => EmptyString
  | String c r => String (if Ascii.eqb c "'" then dquote else c) (sq r)
  end.


(* ------------------------------------------------------------------ *)
(** * Fixtures for concrete runs *)

(** The proleptic Gregorian date of day [z], counted from 1970-01-01. *)
Definition civil_from_days (z : Z) : date :=
  let z := z + 719468 in
  let era := z / 146097 in
  let doe := z - era * 146097 in
  let yoe := (doe - doe / 1460 + doe / 36524 - doe / 146096) / 365 in
  let doy := doe - (365 * yoe + yoe / 4 - yoe / 100) in
  let mp := (5 * doy + 2) / 153 in
  let d := doy - (153 * mp + 2) / 5 + 1 in
  let m := if mp <? 10 then mp + 3 else mp - 9 in
  let y := yoe + era * 400 + (if m <=? 2 then 1 else 0) in
  (y, m, d).

(** The local date in a zone at a fixed offset from UTC (a zone without
    daylight saving, such as Singapore); [datetime] supports the years 1
    to 9999, in UTC as in local time. *)
Definition fixed_zone_date (off ts_ms : Z) : option date :=
  let '(yu, _, _) := civil_from_days (ts_ms / ms_per_day) in
  let '(y, mo, d) := civil_from_days ((ts_ms + off) / ms_per_day) in
  if (1 <=? yu) && (yu <=? 9999) && (1 <=? y) && (y <=? 9999)
  then Some (y, mo, d) else None.

(** The zone of Singapore (+08:00) and 2025-10-16 12:00 local time. *)
Definition sg_offset : Z := 28800000.
Definition noon_ms : Z := 1760587200000.

Definition env_of (f : string -> option response) (ack : bool) : env :=
  {| local_date := fixed_zone_date sg_offset; now_date := (2025, 10, 16);
     predict := f; send_ack := ack |}.

(** A message whose payload is the UTF-8 text [sq payload]. *)
Definition msg_of (payload : string) (ts : Z) : msg :=
  {| value := Some (list_byte_of_string (sq payload)); timestamp := ts |}.

Definition empty_state : state := {| history := []; trace := [] |}.

(** Concatenation of a list of strings. *)
Fixpoint str_concat (l : list string) : string :=
  match l with
  | [] => ""
  | u :: t => u ++ str_concat t
  end.

(** [s] begins with a character that [\s] matches. *)
Definition starts_with_space (s : string) : bool :=
  match space_unit_at s with Some _ => true | None => false end.

(** A message of user 42 in the watched chat that mentions the bot. *)
Definition trig_text : string := "@music_recommender_iss_bot rate these".

Definition trig_rec : list (string * json) :=
  [("chat_id", JNum WATCH_CHAT_ID); ("user_id", JNum 42); ("message", JStr trig_text)].

Definition trig_msg (ts : Z) : msg :=
  msg_of "{'chat_id': -4714765877, 'user_id': 42, 'message': '@music_recommender_iss_bot rate these'}" ts.

Definition yesterday_ms : Z := noon_ms - ms_per_day.

(** A timestamp far in the future (10**15 ms, in the year 33658), which
    [datetime.fromtimestamp] rejects. *)
Definition far_future_ms : Z := 1000000000000000.

(** A scoring service answering [{"pos": 1}] to every text. *)
Definition score_pos : string -> option response :=
  fun _ => Some (RObj [("pos", SNum (NInt 1))]).

Open Scope list_scope.




(** A scoring service that fails on the text of [trig_msg] and answers
    [{"pos": 1}] to any other. *)
Definition score_fail_trigger : string -> option response :=
  fun t => if String.eqb t "rate these" then None else Some (RObj [("pos", SNum (NInt 1))]).

(** The two answers of the spec's example: [{"pos": 1, "neu": 2}] to ["a"]
    and [{"pos": 3, "energy": 5}] to anything else. *)
Definition score_example : string -> option response :=
  fun t =>
    if String.eqb t "a"
    then Some (RObj [("pos", SNum (NInt 1)); ("neu", SNum (NInt 2))])
    else Some (RObj [("pos", SNum (NInt 3)); ("energy", SNum (NInt 5))]).

(** A scoring service answering [{"pos": "high"}]: not a number. *)
Definition score_text : string -> option response :=
  fun _ => Some (RObj [("pos", SOther)]).





(** A record of the watched chat without [user_id]. *)
Definition no_uid_msg (ts : Z) : msg :=
  msg_of "{'chat_id': -4714765877, 'message': 'hi'}" ts.



(** A payload that is not UTF-8: the byte 0xFF, then an opening brace. *)
Definition bad_utf8_msg : msg :=
  {| value := Some [Byte.xff; Byte.x7b]; timestamp := noon_ms |}.

Definition is_some {A} (o : option A) : bool :=
  match o with Some _ => true | None => false end.

(** The last [n] elements of [l]. *)
Definition lastn {A} (n : nat) (l : list A) : list A :=
  skipn (List.length l - n) l.

(* ------------------------------------------------------------------ *)
(** * [get_msk_connection_info]: reading the two AWS answers *)

(** [s.split(",")] with a one-character separator: every occurrence
    separates, empty fields are kept, and there is always a first field. *)
Fixpoint py_split (c : ascii) (s : string) : list string :=
  match s with
  | EmptyString => [""]
  | String x r =>
      if Ascii.eqb x c then "" :: py_split c r
      else
        match py_split c r with
        | f :: fs => String x f :: fs
        | [] => [String x ""]
        end
  end.

(** [sep.join(l)] *)
Fixpoint py_join (sep : string) (l : list string) : string :=
  match l with
  | [] => ""
  | [x] => x
  | x :: t => (x ++ sep ++ py_join sep t)%string
  end.

Definition comma : ascii := ",".

Inductive conn_error : Type :=
| CKeyError (k : string)
| CTypeError
| CAttributeError
| CJSONDecodeError.

(** [d[k]] on a decoded JSON value: a dict gives the value or [KeyError];
    indexing a list, a string, a number or [None] by a string key raises
    [TypeError]. *)
Definition py_getitem (d : json) (k : string) : conn_error + json :=
  match d with
  | JObj fs =>
      match dict_get fs k with
      | Some v => inr v
      | None => inl (CKeyError k)
      end
  | _ => inl CTypeError
  end.

Section Connection.
Variable json_loads : string -> option json.

(** Lines 42-48, given the answers of [get_secret_value] ([secret]) and
    [get_bootstrap_brokers] ([resp]) as dicts. *)
Definition get_msk_connection_info (secret resp : list (string * json))
  : conn_error + (json * json * list string) :=
  match dict_get secret "SecretString" with
  | None => inl (CKeyError "SecretString")
  | Some (JStr ss) =>
      match json_loads ss with
      | None => inl CJSONDecodeError
      | Some creds =>
          match py_getitem creds "username" with
          | inl x => inl x
          | inr username =>
              match py_getitem creds "password" with
              | inl x => inl x
              | inr password =>
                  match dict_get resp "BootstrapBrokerStringPublicSaslScram" with
                  | None => inl (CKeyError "BootstrapBrokerStringPublicSaslScram")
                  | Some (JStr bs) => inr (username, password, py_split comma bs)
                  | Some _ => inl CAttributeError    (* no [split] *)
                  end
              end
          end
      end
  | Some _ => inl CTypeError    (* [json.loads] of a non-string *)
  end.
End Connection.

(* ------------------------------------------------------------------ *)
(** * [main]: the backfill, then the live loop *)

(** [await preload_history(...)] then [await consume_and_process(...)]:
    both phases share the process-wide [user_history], empty at start. *)
Definition main_run (json_loads : string -> option json) (bs : list batch)
    (live : list (msg * env)) : result :=
  match preload_loop json_loads empty_state bs with
  | Ok st => live_loop json_loads st live
  | Crash x st => Crash x st
  end.

(** Every user's window in [h] has at most [maxlen] texts. *)
Definition windows_bounded (h : history_t) : Prop :=
  forall u, (List.length (snapshot h u) <= maxlen)%nat.

(** A record with an integer [user_id] and the same record with its
    decimal string. *)
Definition uid_int_rec : list (string * json) :=
  [("chat_id", JNum WATCH_CHAT_ID); ("user_id", JNum 42); ("message", JStr "hi")].

Definition uid_str_rec : list (string * json) :=
  [("chat_id", JNum WATCH_CHAT_ID); ("user_id", JStr "42"); ("message", JStr "hi")].

Definition uid_int_msg : msg :=
  msg_of "{'chat_id': -4714765877, 'user_id': 42, 'message': 'hi'}" noon_ms.

Definition uid_str_msg : msg :=
  msg_of "{'chat_id': -4714765877, 'user_id': '42', 'message': 'hi'}" noon_ms.

(** The answers of Secrets Manager and of the MSK [get_bootstrap_brokers]. *)
Definition msk_secret : list (string * json) :=
  [("SecretString", JStr (sq "{'username': 'svc', 'password': 'pw'}"))].

Definition msk_resp : list (string * json) :=
  [("BootstrapBrokerStringPublicSaslScram", JStr "b-1.example:9096,b-2.example:9096")].

(** A record from a chat that is not watched. *)
Definition other_chat_rec : list (string * json) :=
  [("chat_id", JNum 5); ("user_id", JNum 42); ("message", JStr "hi")].

Definition other_chat_msg : msg :=
  msg_of "{'chat_id': 5, 'user_id': 42, 'message': 'hi'}" noon_ms.

(** A payload that is a JSON list. *)
Definition list_payload_msg : msg := msg_of "[1, 2]" noon_ms.

(** A message with a null value (a tombstone). *)
Definition null_msg : msg := {| value := None; timestamp := noon_ms |}.

(** A record whose [chat_id] is a list. *)
Definition list_chat_rec : list (string * json) :=
  [("chat_id", JArr [JNum 1]); ("user_id", JNum 42); ("message", JStr "hi")].

Definition list_chat_msg : msg :=
  msg_of "{'chat_id': [1], 'user_id': 42, 'message': 'hi'}" noon_ms.

(** Backfill batches: one non-empty batch, an empty one, then one that
    would abort the backfill if it were read. *)
Definition bf_env : env := env_of score_pos true.

Definition bf_batches : list batch := [[[(trig_msg noon_ms, bf_env)]; []]].

Definition bf_empty : batch := [[]; []].

Definition bf_rest : list batch := [[[(bad_utf8_msg, bf_env)]]].

(* ================================================================== *)
(** * Dicts and the history store *)

Example int_str_neg : int_str (-4714765877) = "-4714765877".
Proof. reflexivity. Qed.

Example py_str_none : py_str JNull = "None".
Proof. reflexivity. Qed.

Section DictFacts.
Context {V : Type}.

Lemma dict_get_set_same (d : list (string * V)) k v :
  dict_get (dict_set d k v) k = Some v.
Proof.
  induction d as [|[k' v'] t IH]; simpl.
  - rewrite String.eqb_refl. reflexivity.
  - destruct (String.eqb k' k) eqn:E; simpl.
    + rewrite String.eqb_refl. reflexivity.
    + rewrite E. exact IH.
Qed.

Lemma dict_get_set_other (d : list (string * V)) k k' v :
  k <> k' -> dict_get (dict_set d k v) k' = dict_get d k'.
Proof.
  intros Hne. induction d as [|[k0 v0] t IH]; simpl.
  - apply String.eqb_neq in Hne. rewrite Hne. reflexivity.
  - destruct (String.eqb k0 k) eqn:E; simpl.
    + apply String.eqb_eq in E. subst k0.
      apply String.eqb_neq in Hne. rewrite Hne. reflexivity.
    + rewrite IH. reflexivity.
Qed.
End DictFacts.

Lemma snapshot_hist_append h uid t :
  snapshot (hist_append h uid t) uid = deque_append (snapshot h uid) t.
Proof.
  unfold snapshot, hist_append, hist_entry.
  destruct (dict_get h uid) eqn:E; simpl; rewrite dict_get_set_same; reflexivity.
Qed.

Lemma lastn_short {A} n (l : list A) :
  (List.length l <= n)%nat -> lastn n l = l.
Proof.
  intros H. unfold lastn. replace (List.length l - n)%nat with 0%nat by lia.
  reflexivity.
Qed.

Lemma length_lastn {A} n (l : list A) :
  List.length (lastn n l) = Nat.min n (List.length l).
Proof. unfold lastn. rewrite length_skipn. lia. Qed.

Lemma lastn_app_long {A} n (p z : list A) :
  (n <= List.length z)%nat -> lastn n (p ++ z) = lastn n z.
Proof.
  intros H. unfold lastn. rewrite length_app, skipn_app.
  rewrite (skipn_all2 p) by lia. simpl.
  f_equal. lia.
Qed.

Lemma lastn_lastn_app {A} n (x y : list A) :
  lastn n (lastn n x ++ y) = lastn n (x ++ y).
Proof.
  destruct (Nat.le_gt_cases (List.length x) n) as [Hle|Hgt].
  - rewrite (lastn_short n x Hle). reflexivity.
  - assert (Hx : x ++ y = firstn (List.length x - n) x ++ (lastn n x ++ y)).
    { unfold lastn. rewrite app_assoc, firstn_skipn. reflexivity. }
    rewrite Hx, (lastn_app_long n (firstn (List.length x - n) x) (lastn n x ++ y)).
    + reflexivity.
    + rewrite length_app, length_lastn. lia.
Qed.

(** One append on a window that respects the bound keeps the last [maxlen]. *)
Lemma deque_append_lastn w t :
  (List.length w <= maxlen)%nat -> deque_append w t = lastn maxlen (w ++ [t]).
Proof.
  intros H. unfold deque_append, lastn.
  rewrite length_app. simpl.
  destruct (Nat.ltb maxlen (List.length w + 1)) eqn:E.
  - apply Nat.ltb_lt in E.
    replace (List.length w + 1 - maxlen)%nat with 1%nat by (unfold maxlen in *; lia).
    destruct (w ++ [t]) eqn:Ew; reflexivity.
  - apply Nat.ltb_ge in E.
    replace (List.length w + 1 - maxlen)%nat with 0%nat by lia. reflexivity.
Qed.

Lemma fold_deque_append l w :
  (List.length w <= maxlen)%nat ->
  fold_left deque_append l w = lastn maxlen (w ++ l).
Proof.
  revert w. induction l as [|a l IH]; intros w Hw; simpl.
  - rewrite app_nil_r. symmetry. apply lastn_short. exact Hw.
  - rewrite IH.
    + rewrite deque_append_lastn by exact Hw.
      rewrite lastn_lastn_app, <- app_assoc. reflexivity.
    + rewrite deque_append_lastn by exact Hw.
      rewrite length_lastn. lia.
Qed.

Lemma deque_append_last w t :
  exists older, deque_append w t = older ++ [t].
Proof.
  unfold deque_append. destruct w as [|a w']; simpl.
  - exists []. reflexivity.
  - destruct (Nat.ltb maxlen (S (List.length (w' ++ [t])))).
    + exists w'. reflexivity.
    + exists (a :: w'). reflexivity.
Qed.

Lemma snapshot_fold_admit h uid l :
  snapshot (fold_left (fun h t => hist_append h uid t) l h) uid =
  fold_left deque_append l (snapshot h uid).
Proof.
  revert h. induction l as [|a l IH]; intros h; simpl.
  - reflexivity.
  - rewrite IH, snapshot_hist_append. reflexivity.
Qed.

(* ================================================================== *)
(** * C3: the window holds the last [maxlen] admissions *)

(** C3. Starting from a user without a window (windows are created lazily),
    after any sequence [l] of admissions the user's window has at most 10
    texts and is exactly the last 10 admitted texts in admission order;
    once more than 10 have been admitted it holds exactly 10. *)
Theorem window_capacity_fifo (h : history_t) (uid : string) (l : list string) :
  dict_get h uid = None ->
  let w := snapshot (fold_left (fun h t => hist_append h uid t) l h) uid in
  (List.length w <= maxlen)%nat /\ w = lastn maxlen l /\
  ((maxlen < List.length l)%nat -> List.length w = maxlen).
Proof.
  intros Hnone w. subst w.
  rewrite snapshot_fold_admit.
  unfold snapshot, hist_entry. rewrite Hnone. simpl.
  rewrite fold_deque_append by (simpl; lia). simpl.
  rewrite length_lastn. repeat split; lia.
Qed.

Lemma window_capacity_fifo_witness :
  let l := ["m1"; "m2"; "m3"; "m4"; "m5"; "m6"; "m7"; "m8"; "m9"; "m10"; "m11"; "m12"] in
  let w := snapshot (fold_left (fun h t => hist_append h "42" t) l []) "42" in
  (List.length w <= maxlen)%nat /\ w = lastn maxlen l /\
  ((maxlen < List.length l)%nat -> List.length w = maxlen).
Proof.
  apply (window_capacity_fifo [] "42"). reflexivity.
Defined.

Example window_after_twelve :
  snapshot (fold_left (fun h t => hist_append h "42" t)
              ["m1"; "m2"; "m3"; "m4"; "m5"; "m6"; "m7"; "m8"; "m9"; "m10"; "m11"; "m12"] [])
           "42"
  = ["m3"; "m4"; "m5"; "m6"; "m7"; "m8"; "m9"; "m10"; "m11"; "m12"].
Proof. reflexivity. Qed.

(* ================================================================== *)
(** * The trigger and one live step *)

Lemma gather_none f l :
  (exists t, In t l /\ f t = None) -> gather f l = None.
Proof.
  intros [t [Hin Hf]]. induction l as [|a l IH]; simpl in *.
  - contradiction.
  - destruct Hin as [<-|Hin].
    + rewrite Hf. reflexivity.
    + rewrite (IH Hin). destruct (f a); reflexivity.
Qed.

(** The trigger when one of the calls fails: the calls are issued, the
    failure is printed, nothing is sent. *)
Lemma trigger_failed st uid e :
  let clean := map sub_mention (snapshot (history st) uid) in
  gather (predict e) clean = None ->
  trigger st uid e =
  Ok {| history := fst (hist_entry (history st) uid);
        trace := trace st ++ EvTriggered uid clean :: map EvCall clean ++ [EvPredictFailed] |}.
Proof.
  intros clean Hg. subst clean. unfold trigger, snapshot in *.
  destruct (hist_entry (history st) uid) as [h1 batch]. simpl in *.
  rewrite Hg. unfold log. simpl. rewrite <- app_assoc. reflexivity.
Qed.

(** The trigger when every call succeeds and the aggregation goes
    through: the aggregate is sent. *)
Lemma trigger_success st uid e results agg :
  let clean := map sub_mention (snapshot (history st) uid) in
  gather (predict e) clean = Some results ->
  aggregate results = inr agg ->
  let st2 := {| history := fst (hist_entry (history st) uid);
                trace := trace st ++ EvTriggered uid clean :: map EvCall clean
                         ++ [EvSend (output_record uid agg)] |} in
  trigger st uid e = if send_ack e then Ok st2 else Crash KafkaError st2.
Proof.
  intros clean Hg Ha st2. subst clean st2. unfold trigger, snapshot in *.
  destruct (hist_entry (history st) uid) as [h1 batch]. simpl in *.
  rewrite Hg, Ha. unfold log. simpl. rewrite <- app_assoc. reflexivity.
Qed.

(** The trigger when every call succeeds but the aggregation raises: the
    exception ends the step after the calls. *)
Lemma trigger_agg_error st uid e results x :
  let clean := map sub_mention (snapshot (history st) uid) in
  gather (predict e) clean = Some results ->
  aggregate results = inl x ->
  trigger st uid e =
  Crash x {| history := fst (hist_entry (history st) uid);
             trace := trace st ++ EvTriggered uid clean :: map EvCall clean |}.
Proof.
  intros clean Hg Ha. subst clean. unfold trigger, snapshot in *.
  destruct (hist_entry (history st) uid) as [h1 batch]. simpl in *.
  rewrite Hg, Ha. reflexivity.
Qed.

(** Whatever the calls do, the trigger first prints the cleaned snapshot
    taken on entry. *)
Lemma trigger_trace st uid e :
  exists sfx, trace (res_state (trigger st uid e)) =
              trace st ++ EvTriggered uid (map sub_mention (snapshot (history st) uid)) :: sfx.
Proof.
  destruct (gather (predict e) (map sub_mention (snapshot (history st) uid))) as [results|] eqn:Hg.
  - destruct (aggregate results) as [x|agg] eqn:Ha.
    + rewrite (trigger_agg_error st uid e results x Hg Ha). simpl. eexists; reflexivity.
    + rewrite (trigger_success st uid e results agg Hg Ha).
      destruct (send_ack e); simpl; eexists; reflexivity.
  - rewrite (trigger_failed st uid e Hg). simpl. eexists; reflexivity.
Qed.

Section Live.
Variable json_loads : string -> option json.

(** A well-formed record from a watched chat whose date check returns:
    admission when it is from today, then the trigger when its text holds
    the marker. *)
Lemma live_step_watched st m e rec t b :
  parse_value json_loads (value m) = PJson (JObj rec) ->
  in_watch (rec_chat_id rec) = Some true ->
  rec_text rec = JStr t ->
  is_same_local_day e (timestamp m) = Some b ->
  live_step json_loads st m e =
  let st1 := if b then set_history st (hist_append (history st) (rec_user_id rec) t)
             else st in
  if str_contains BOT_MENTION t then trigger st1 (rec_user_id rec) e else Ok st1.
Proof.
  intros Hp Hw Ht Hd. unfold live_step. rewrite Hp, Hw, Ht. cbn - [trigger].
  rewrite Hd. reflexivity.
Qed.

(** The same record when the date check raises. *)
Lemma live_step_date_error st m e rec t :
  parse_value json_loads (value m) = PJson (JObj rec) ->
  in_watch (rec_chat_id rec) = Some true ->
  rec_text rec = JStr t ->
  is_same_local_day e (timestamp m) = None ->
  live_step json_loads st m e = Crash DateRangeError st.
Proof.
  intros Hp Hw Ht Hd. unfold live_step. rewrite Hp, Hw, Ht. cbn - [trigger].
  rewrite Hd. reflexivity.
Qed.

Lemma live_step_extends st m e :
  exists sfx, trace (res_state (live_step json_loads st m e)) = trace st ++ sfx.
Proof.
  unfold live_step.
  destruct (parse_value json_loads (value m)) as [x| |j].
  - exists []. simpl. rewrite app_nil_r. reflexivity.
  - exists [EvNonJson]. reflexivity.
  - destruct j as [| | | | |rec]; try (exists []; simpl; rewrite app_nil_r; reflexivity).
    destruct (in_watch (rec_chat_id rec)) as [w|];
      [|exists []; simpl; rewrite app_nil_r; reflexivity].
    destruct (negb w || py_is_none (JStr (rec_user_id rec)) || negb (py_is_str (rec_text rec))).
    + exists []. simpl. rewrite app_nil_r. reflexivity.
    + destruct (rec_text rec) as [| | |t| |];
        try (exists []; simpl; rewrite app_nil_r; reflexivity).
      destruct (is_same_local_day e (timestamp m)) as [b|];
        [|exists []; simpl; rewrite app_nil_r; reflexivity].
      set (st1 := if b then _ else st).
      assert (Htr : trace st1 = trace st) by (unfold st1; destruct b; reflexivity).
      destruct (str_contains BOT_MENTION t).
      * destruct (trigger_trace st1 (rec_user_id rec) e) as [sfx Hs].
        rewrite Hs, Htr. eexists; reflexivity.
      * exists []. simpl. rewrite Htr, app_nil_r. reflexivity.
Qed.

(** Later messages only append to the trace. *)
Lemma live_loop_extends st ms :
  exists sfx, trace (res_state (live_loop json_loads st ms)) = trace st ++ sfx.
Proof.
  revert st. induction ms as [|[m e] ms IH]; intros st; simpl.
  - exists []. rewrite app_nil_r. reflexivity.
  - destruct (live_step_extends st m e) as [s1 H1].
    destruct (live_step json_loads st m e) as [st'|x st'] eqn:E; simpl in *.
    + destruct (IH st') as [s2 H2]. rewrite H2, H1, <- app_assoc. eexists; reflexivity.
    + rewrite H1. eexists; reflexivity.
Qed.
End Live.

(* ================================================================== *)
(** * Claims about the live loop *)

Section LiveClaims.
Variable json_loads : string -> option json.

(** C2. When a watched, well-formed record with the marker triggers the
    pipeline (its date check returned) and at least one of the calls for
    its buffered texts fails, the step ends normally: the calls are
    issued, the failure is printed, no record is sent, and the loop goes on
    with the next message exactly as from the resulting state. *)
Theorem failed_call_abandons_trigger st m e rec t b rest :
  parse_value json_loads (value m) = PJson (JObj rec) ->
  in_watch (rec_chat_id rec) = Some true ->
  rec_text rec = JStr t ->
  str_contains BOT_MENTION t = true ->
  is_same_local_day e (timestamp m) = Some b ->
  let uid := rec_user_id rec in
  let st1 := if b then set_history st (hist_append (history st) uid t) else st in
  let clean := map sub_mention (snapshot (history st1) uid) in
  (exists c, In c clean /\ predict e c = None) ->
  exists st', live_step json_loads st m e = Ok st' /\
    trace st' = trace st ++ EvTriggered uid clean :: map EvCall clean ++ [EvPredictFailed] /\
    (forall r, ~ In (EvSend r) (EvTriggered uid clean :: map EvCall clean ++ [EvPredictFailed])) /\
    live_loop json_loads st ((m, e) :: rest) = live_loop json_loads st' rest.
Proof.
  intros Hp Hw Ht Hm Hd uid st1 clean Hc.
  assert (Hg : gather (predict e) clean = None) by (apply gather_none; exact Hc).
  assert (Htr : trace st1 = trace st) by (unfold st1; destruct b; reflexivity).
  assert (Hstep : live_step json_loads st m e = trigger st1 uid e).
  { rewrite (live_step_watched json_loads st m e rec t b Hp Hw Ht Hd). simpl.
    rewrite Hm. reflexivity. }
  rewrite (trigger_failed st1 uid e Hg) in Hstep.
  eexists. split; [exact Hstep|]. split; [simpl; rewrite Htr; reflexivity|]. split.
  - intros r Hin. simpl in Hin. destruct Hin as [Hin|Hin]; [discriminate|].
    apply in_app_or in Hin. destruct Hin as [Hin|[Hin|[]]]; [|discriminate].
    apply in_map_iff in Hin. destruct Hin as [x [Hx _]]. discriminate.
  - simpl. rewrite Hstep. reflexivity.
Qed.

(** C4 (as amended). For a well-formed record of a watched chat whose text
    contains the marker: when the date check returns, whether true (the
    record is admitted first) or false (for instance a record from an
    earlier day), the step is the trigger on the state after the possibly
    skipped admission, and it prints the cleaned snapshot it takes; when
    the date check raises, the step fails before the trigger and the loop
    stops. *)
Theorem trigger_independent_of_admission st m e rec t rest :
  parse_value json_loads (value m) = PJson (JObj rec) ->
  in_watch (rec_chat_id rec) = Some true ->
  rec_text rec = JStr t ->
  str_contains BOT_MENTION t = true ->
  let uid := rec_user_id rec in
  (forall b, is_same_local_day e (timestamp m) = Some b ->
     let st1 := if b then set_history st (hist_append (history st) uid t) else st in
     live_step json_loads st m e = trigger st1 uid e /\
     exists sfx, trace (res_state (live_step json_loads st m e)) =
                 trace st ++ EvTriggered uid (map sub_mention (snapshot (history st1) uid)) :: sfx) /\
  (is_same_local_day e (timestamp m) = None ->
     live_step json_loads st m e = Crash DateRangeError st /\
     live_loop json_loads st ((m, e) :: rest) = Crash DateRangeError st).
Proof.
  intros Hp Hw Ht Hm uid. split.
  - intros b Hd st1.
    assert (Htr : trace st1 = trace st) by (unfold st1; destruct b; reflexivity).
    assert (Hstep : live_step json_loads st m e = trigger st1 uid e).
    { rewrite (live_step_watched json_loads st m e rec t b Hp Hw Ht Hd). simpl.
      rewrite Hm. reflexivity. }
    split; [exact Hstep|].
    rewrite Hstep. destruct (trigger_trace st1 uid e) as [sfx Hs].
    rewrite Hs, Htr. eexists; reflexivity.
  - intros Hd.
    pose proof (live_step_date_error json_loads st m e rec t Hp Hw Ht Hd) as Hstep.
    split; [exact Hstep|]. simpl. rewrite Hstep. reflexivity.
Qed.

(** C7. For a well-formed record of a watched chat, from today, whose text
    contains the marker: the record is admitted before the trigger runs,
    so the snapshot the trigger takes is the window after that admission,
    with the triggering text as its newest element; the trigger's print of
    that snapshot stays in the trace whatever the later messages do. *)
Theorem snapshot_includes_trigger_message st m e rec t rest :
  parse_value json_loads (value m) = PJson (JObj rec) ->
  in_watch (rec_chat_id rec) = Some true ->
  rec_text rec = JStr t ->
  str_contains BOT_MENTION t = true ->
  is_same_local_day e (timestamp m) = Some true ->
  let uid := rec_user_id rec in
  let st1 := set_history st (hist_append (history st) uid t) in
  let snap := snapshot (history st1) uid in
  live_step json_loads st m e = trigger st1 uid e /\
  snap = deque_append (snapshot (history st) uid) t /\
  (exists older, snap = older ++ [t]) /\
  exists sfx,
    trace (res_state (live_step json_loads st m e)) =
      trace st ++ EvTriggered uid (map sub_mention snap) :: sfx /\
    exists later,
      trace (res_state (live_loop json_loads st ((m, e) :: rest))) =
        trace st ++ EvTriggered uid (map sub_mention snap) :: sfx ++ later.
Proof.
  intros Hp Hw Ht Hm Hday uid st1 snap.
  assert (Hstep : live_step json_loads st m e = trigger st1 uid e).
  { rewrite (live_step_watched json_loads st m e rec t true Hp Hw Ht Hday). simpl.
    rewrite Hm. reflexivity. }
  assert (Hsnap : snap = deque_append (snapshot (history st) uid) t)
    by (apply snapshot_hist_append).
  split; [exact Hstep|]. split; [exact Hsnap|]. split.
  - rewrite Hsnap. apply deque_append_last.
  - destruct (trigger_trace st1 uid e) as [sfx Hs].
    exists sfx. rewrite Hstep, Hs. split; [reflexivity|].
    simpl. rewrite Hstep.
    destruct (trigger st1 uid e) as [st'|x st'] eqn:E; simpl in *.
    + destruct (live_loop_extends json_loads st' rest) as [later Hl].
      rewrite Hl, Hs. exists later. rewrite <- app_assoc. reflexivity.
    + exists []. rewrite Hs, app_nil_r. reflexivity.
Qed.

End LiveClaims.

Example trig_msg_parses :
  parse_value json_loads_subset (value (trig_msg noon_ms)) = PJson (JObj trig_rec).
Proof. vm_compute. reflexivity. Qed.

Example fixed_zone_dates :
  fixed_zone_date sg_offset noon_ms = Some (2025, 10, 16) /\
  fixed_zone_date sg_offset yesterday_ms = Some (2025, 10, 15) /\
  fixed_zone_date sg_offset far_future_ms = None.
Proof. vm_compute. repeat split. Qed.

(** A window of two texts: the call on the first succeeds, the call on the
    triggering text fails. *)
Lemma failed_call_abandons_trigger_witness :
  let st := {| history := [("42", ["earlier"])]; trace := [] |} in
  let e := env_of score_fail_trigger true in
  let uid := rec_user_id trig_rec in
  let st1 := if true then set_history st (hist_append (history st) uid trig_text) else st in
  let clean := map sub_mention (snapshot (history st1) uid) in
  exists st', live_step json_loads_subset st (trig_msg noon_ms) e = Ok st' /\
    trace st' = trace st ++ EvTriggered uid clean :: map EvCall clean ++ [EvPredictFailed] /\
    (forall r, ~ In (EvSend r) (EvTriggered uid clean :: map EvCall clean ++ [EvPredictFailed])) /\
    live_loop json_loads_subset st ((trig_msg noon_ms, e) :: []) =
    live_loop json_loads_subset st' [].
Proof.
  refine (failed_call_abandons_trigger json_loads_subset
            {| history := [("42", ["earlier"])]; trace := [] |} (trig_msg noon_ms)
            (env_of score_fail_trigger true) trig_rec trig_text true [] _ _ _ _ _ _).
  - vm_compute. reflexivity.
  - reflexivity.
  - reflexivity.
  - vm_compute. reflexivity.
  - vm_compute. reflexivity.
  - vm_compute. exists "rate these". split; [right; left; reflexivity | reflexivity].
Defined.

(** The two calls of that witness: the first succeeds, the second fails. *)
Example failed_call_mixed_outcomes :
  map (predict (env_of score_fail_trigger true))
      (map sub_mention (snapshot (hist_append [("42", ["earlier"])] "42" trig_text) "42")) =
  [Some (RObj [("pos", SNum (NInt 1))]); None].
Proof. vm_compute. reflexivity. Qed.

Lemma trigger_independent_of_admission_witness :
  let e := env_of score_pos true in
  let m := trig_msg yesterday_ms in
  let uid := rec_user_id trig_rec in
  (forall b, is_same_local_day e (timestamp m) = Some b ->
     let st1 := if b then set_history empty_state (hist_append (history empty_state) uid trig_text)
                else empty_state in
     live_step json_loads_subset empty_state m e = trigger st1 uid e /\
     exists sfx, trace (res_state (live_step json_loads_subset empty_state m e)) =
                 trace empty_state ++ EvTriggered uid (map sub_mention (snapshot (history st1) uid)) :: sfx) /\
  (is_same_local_day e (timestamp m) = None ->
     live_step json_loads_subset empty_state m e = Crash DateRangeError empty_state /\
     live_loop json_loads_subset empty_state ((m, e) :: []) = Crash DateRangeError empty_state).
Proof.
  refine (trigger_independent_of_admission json_loads_subset empty_state
            (trig_msg yesterday_ms) (env_of score_pos true) trig_rec trig_text [] _ _ _ _).
  - vm_compute. reflexivity.
  - reflexivity.
  - reflexivity.
  - vm_compute. reflexivity.
Defined.

(** C4 as stated fails: a watched, well-formed record with the marker whose
    timestamp [datetime.fromtimestamp] rejects never reaches the trigger;
    the [ValueError] of line 141 ends the live loop with nothing printed. *)
Lemma trigger_date_error_counterexample :
  parse_value json_loads_subset (value (trig_msg far_future_ms)) = PJson (JObj trig_rec) /\
  in_watch (rec_chat_id trig_rec) = Some true /\
  rec_text trig_rec = JStr trig_text /\
  str_contains BOT_MENTION trig_text = true /\
  live_loop json_loads_subset empty_state
    [(trig_msg far_future_ms, env_of score_pos true); (trig_msg noon_ms, env_of score_pos true)] =
  Crash DateRangeError empty_state.
Proof. vm_compute. repeat split. Qed.

Lemma snapshot_includes_trigger_message_witness :
  let e := env_of score_pos true in
  let m := trig_msg noon_ms in
  let uid := rec_user_id trig_rec in
  let st1 := set_history empty_state (hist_append (history empty_state) uid trig_text) in
  let snap := snapshot (history st1) uid in
  live_step json_loads_subset empty_state m e = trigger st1 uid e /\
  snap = deque_append (snapshot (history empty_state) uid) trig_text /\
  (exists older, snap = older ++ [trig_text]) /\
  exists sfx,
    trace (res_state (live_step json_loads_subset empty_state m e)) =
      trace empty_state ++ EvTriggered uid (map sub_mention snap) :: sfx /\
    exists later,
      trace (res_state (live_loop json_loads_subset empty_state ((m, e) :: []))) =
        trace empty_state ++ EvTriggered uid (map sub_mention snap) :: sfx ++ later.
Proof.
  refine (snapshot_includes_trigger_message json_loads_subset empty_state
            (trig_msg noon_ms) (env_of score_pos true) trig_rec trig_text [] _ _ _ _ _).
  - vm_compute. reflexivity.
  - reflexivity.
  - reflexivity.
  - vm_compute. reflexivity.
  - vm_compute. reflexivity.
Defined.


Example run_trigger_today :
  live_step json_loads_subset empty_state (trig_msg noon_ms) (env_of score_pos true) =
  Ok {| history := [("42", [trig_text])];
        trace := [EvTriggered "42" ["rate these"]; EvCall "rate these";
                  EvSend [("pos", ONum (NInt 1)); ("user_id", OStr "42")]] |}.
Proof. vm_compute. reflexivity. Qed.

(* ================================================================== *)
(** * C5: the aggregate *)








Example aggregate_example :
  aggregate [RObj [("pos", SNum (NInt 1)); ("neu", SNum (NInt 2))];
             RObj [("pos", SNum (NInt 3)); ("energy", SNum (NInt 5))]] =
  inr [("pos", NInt 4); ("neu", NInt 2); ("energy", NInt 5)].
Proof. reflexivity. Qed.



Example aggregate_example_sent :
  trigger {| history := [("42", ["a"; "b"])]; trace := [] |} "42" (env_of score_example true) =
  Ok {| history := [("42", ["a"; "b"])];
        trace := [EvTriggered "42" ["a"; "b"]; EvCall "a"; EvCall "b";
                  EvSend [("pos", ONum (NInt 4)); ("neu", ONum (NInt 2));
                          ("energy", ONum (NInt 5)); ("user_id", OStr "42")]] |}.
Proof. vm_compute. reflexivity. Qed.


(* ================================================================== *)
(** * C6: the mention prefix *)

Lemma str_app_assoc (a b c : string) :
  ((a ++ b) ++ c)%string = (a ++ (b ++ c))%string.
Proof. induction a as [|x a IH]; simpl; [reflexivity | rewrite IH; reflexivity]. Qed.

Lemma str_length_app (a b : string) :
  String.length (a ++ b) = (String.length a + String.length b)%nat.
Proof. induction a as [|x a IH]; simpl; [reflexivity | rewrite IH; reflexivity]. Qed.

Lemma strip_prefix_app (p s : string) :
  strip_prefix p (p ++ s) = Some s.
Proof.
  induction p as [|c p IH]; simpl; [reflexivity|].
  rewrite Ascii.eqb_refl. exact IH.
Qed.

(** Each whitespace encoding is matched as itself: they are prefix-free. *)
Lemma space_unit_at_app u s :
  In u py_space_units -> space_unit_at (u ++ s) = Some s.
Proof.
  intros H. unfold py_space_units in H. simpl in H.
  repeat (destruct H as [<-|H]; [reflexivity|]). contradiction.
Qed.

Lemma space_unit_length u :
  In u py_space_units -> (1 <= String.length u)%nat.
Proof.
  intros H. unfold py_space_units in H. simpl in H.
  repeat (destruct H as [<-|H]; [simpl; lia|]). contradiction.
Qed.

Lemma strip_ws_fuel_units ws r n :
  Forall (fun u => In u py_space_units) ws ->
  starts_with_space r = false ->
  (String.length (str_concat ws ++ r) <= n)%nat ->
  strip_ws_fuel n (str_concat ws ++ r) = r.
Proof.
  intros Hws Hr. revert n. induction Hws as [|u ws Hu Hws IH]; intros n Hn; simpl in Hn |- *.
  - destruct n; simpl; [reflexivity|].
    unfold starts_with_space in Hr. destruct (space_unit_at r); [discriminate | reflexivity].
  - rewrite str_app_assoc in Hn |- *. rewrite str_length_app in Hn.
    pose proof (space_unit_length u Hu).
    destruct n as [|n]; [lia|]. simpl.
    rewrite (space_unit_at_app u _ Hu). apply IH. lia.
Qed.

(** C6. The cleaning of a buffered text removes the marker only when the
    text starts with it, and then removes that one occurrence and every
    whitespace character right after it (whitespace as Python's [\s]
    matches it); any other text is unchanged. The two texts of the claim
    give the stated results. *)
Theorem mention_strip_anchored :
  (forall m, is_prefix BOT_MENTION m = false -> sub_mention m = m) /\
  (forall ws r, Forall (fun u => In u py_space_units) ws ->
     starts_with_space r = false ->
     sub_mention (BOT_MENTION ++ str_concat ws ++ r) = r) /\
  sub_mention "hello @music_recommender_iss_bot" = "hello @music_recommender_iss_bot" /\
  sub_mention "@music_recommender_iss_bot  rate this" = "rate this".
Proof.
  split; [|split; [|split]].
  - intros m Hm. unfold sub_mention. unfold is_prefix in Hm.
    destruct (strip_prefix BOT_MENTION m); [discriminate | reflexivity].
  - intros ws r Hws Hr. unfold sub_mention. rewrite strip_prefix_app.
    unfold strip_ws. apply strip_ws_fuel_units; [exact Hws | exact Hr | lia].
  - reflexivity.
  - reflexivity.
Qed.

Lemma mention_strip_anchored_witness :
  sub_mention (BOT_MENTION ++ str_concat [" "; ch 9; (ch 194 ++ ch 160)%string] ++
               BOT_MENTION ++ " go")%string = (BOT_MENTION ++ " go")%string /\
  sub_mention "hi" = "hi".
Proof.
  split.
  - apply (proj1 (proj2 mention_strip_anchored)).
    + apply Forall_forall. intros u Hu. simpl in Hu.
      destruct Hu as [<-|[<-|[<-|[]]]]; unfold py_space_units; simpl;
        repeat (first [left; reflexivity | right]).
    + reflexivity.
  - apply (proj1 mention_strip_anchored). reflexivity.
Defined.

(* ================================================================== *)
(** * Records that lack a field, and payloads that do not parse *)

(** C1 (defect). [user_id = str(rec.get("user_id"))] is the string
    ["None"] when the field is missing, so the check [user_id is not None]
    never rejects: a record of the watched chat without [user_id] is
    admitted, under the key ["None"], by both loops. *)
Theorem missing_user_id_admitted :
  live_step json_loads_subset empty_state (no_uid_msg noon_ms) (env_of score_pos true) =
    Ok {| history := [("None", ["hi"])]; trace := [] |} /\
  preload_step json_loads_subset empty_state (no_uid_msg noon_ms) (env_of score_pos true) =
    Ok {| history := [("None", ["hi"])]; trace := [EvPreloaded "None" "hi"] |}.
Proof. split; vm_compute; reflexivity. Qed.


Section MissingMessage.
Variable json_loads : string -> option json.


(** Valid UTF-8 that [json.loads] rejects is skipped by both loops. *)
Lemma non_json_text_skipped st m e bs :
  value m = Some bs ->
  utf8_valid bs = true ->
  json_loads (string_of_list_byte bs) = None ->
  live_step json_loads st m e = Ok (log st EvNonJson) /\
  preload_step json_loads st m e = Ok (log st EvNonJson).
Proof.
  intros Hv Hu Hj. unfold live_step, preload_step, parse_value.
  rewrite Hv, Hu, Hj. split; reflexivity.
Qed.

(** C9 (defect). A payload that is not UTF-8 raises [UnicodeDecodeError]
    in [msg.value.decode("utf-8")], which the handler
    [except (json.JSONDecodeError, TypeError)] does not catch: the step
    fails and each loop stops at that message. *)
Theorem non_utf8_payload_aborts st e rest bs :
  live_step json_loads st bad_utf8_msg e = Crash UnicodeDecodeError st /\
  live_loop json_loads st ((bad_utf8_msg, e) :: rest) = Crash UnicodeDecodeError st /\
  preload_step json_loads st bad_utf8_msg e = Crash UnicodeDecodeError st /\
  preload_loop json_loads st ([[(bad_utf8_msg, e)]] :: bs) = Crash UnicodeDecodeError st.
Proof. repeat split; reflexivity. Qed.
End MissingMessage.


(* ================================================================== *)
(** * Beyond the claims: [get_msk_connection_info] *)

Lemma py_split_nonempty c s : py_split c s <> [].
Proof.
  destruct s as [|x r]; simpl; [discriminate|].
  destruct (Ascii.eqb x c); [discriminate|].
  destruct (py_split c r); discriminate.
Qed.

Lemma py_join_cons sep x t :
  t <> [] -> py_join sep (x :: t) = (x ++ sep ++ py_join sep t)%string.
Proof. destruct t; [contradiction|reflexivity]. Qed.

Lemma py_split_join c s :
  py_join (String c EmptyString) (py_split c s) = s.
Proof.
  induction s as [|x r IH]; simpl; [reflexivity|].
  destruct (Ascii.eqb x c) eqn:E.
  - apply Ascii.eqb_eq in E. subst x.
    rewrite py_join_cons by apply py_split_nonempty. simpl. rewrite IH. reflexivity.
  - pose proof (py_split_nonempty c r) as Hne.
    destruct (py_split c r) as [|f fs]; [contradiction|].
    destruct fs as [|g gs]; simpl in *.
    + rewrite IH. reflexivity.
    + rewrite <- IH. reflexivity.
Qed.

Lemma py_split_no_sep c s :
  Forall (fun f => ~ In c (list_ascii_of_string f)) (py_split c s).
Proof.
  induction s as [|x r IH]; simpl.
  - constructor; [simpl; tauto|constructor].
  - destruct (Ascii.eqb x c) eqn:E.
    + constructor; [simpl; tauto|exact IH].
    + destruct (py_split c r) as [|f fs] eqn:Es.
      * constructor; [|constructor]. simpl. intros [H|H]; [|exact H].
        subst x. rewrite Ascii.eqb_refl in E. discriminate.
      * inversion IH as [|f' fs' Hf Hfs]; subst.
        constructor; [|exact Hfs]. simpl. intros [H|H]; [|exact (Hf H)].
        subst x. rewrite Ascii.eqb_refl in E. discriminate.
Qed.

(** X1. When [get_msk_connection_info] returns, the broker list comes from
    the string under [BootstrapBrokerStringPublicSaslScram]: it is never
    empty, no entry holds a comma, and joining the entries with [","] gives
    that string back. *)
Theorem msk_brokers_split_roundtrip jl secret resp u p brokers :
  get_msk_connection_info jl secret resp = inr (u, p, brokers) ->
  exists bs,
    dict_get resp "BootstrapBrokerStringPublicSaslScram" = Some (JStr bs) /\
    brokers <> [] /\
    Forall (fun f => ~ In comma (list_ascii_of_string f)) brokers /\
    py_join "," brokers = bs.
Proof.
  unfold get_msk_connection_info.
  destruct (dict_get secret "SecretString") as [[| | |ss| |]|]; try discriminate.
  destruct (jl ss) as [creds|]; [|discriminate].
  destruct (py_getitem creds "username") as [|un]; [discriminate|].
  destruct (py_getitem creds "password") as [|pw]; [discriminate|].
  destruct (dict_get resp "BootstrapBrokerStringPublicSaslScram") as [[| | |bs| |]|];
    try discriminate.
  intros H. injection H as <- <- <-.
  exists bs. split; [reflexivity|]. split; [apply py_split_nonempty|].
  split; [apply py_split_no_sep|apply py_split_join].
Qed.

Lemma msk_brokers_split_roundtrip_witness :
  get_msk_connection_info json_loads_subset msk_secret msk_resp =
    inr (JStr "svc", JStr "pw", ["b-1.example:9096"; "b-2.example:9096"]) /\
  exists bs,
    dict_get msk_resp "BootstrapBrokerStringPublicSaslScram" = Some (JStr bs) /\
    ["b-1.example:9096"; "b-2.example:9096"] <> [] /\
    Forall (fun f => ~ In comma (list_ascii_of_string f))
      ["b-1.example:9096"; "b-2.example:9096"] /\
    py_join "," ["b-1.example:9096"; "b-2.example:9096"] = bs.
Proof.
  split; [vm_compute; reflexivity|].
  refine (msk_brokers_split_roundtrip json_loads_subset msk_secret msk_resp
            (JStr "svc") (JStr "pw") _ _).
  vm_compute; reflexivity.
Defined.

(* ================================================================== *)
(** * Beyond the claims: [user_history] *)

(** X3. Appending to one user's window leaves every other user's window
    as it was. *)
Theorem hist_append_other_users h uid u t :
  u <> uid -> snapshot (hist_append h uid t) u = snapshot h u.
Proof.
  intros Hne. unfold hist_append, snapshot, hist_entry.
  destruct (dict_get h uid) as [d|] eqn:E; simpl;
    rewrite dict_get_set_other by congruence.
  - destruct (dict_get h u); reflexivity.
  - rewrite dict_get_set_other by congruence. destruct (dict_get h u); reflexivity.
Qed.

Lemma hist_append_other_users_witness :
  "7" <> "42" /\
  snapshot (hist_append [("7", ["a"]); ("42", ["b"])] "42" "c") "7" =
  snapshot [("7", ["a"]); ("42", ["b"])] "7".
Proof.
  split; [discriminate|].
  apply hist_append_other_users. discriminate.
Defined.

(** Reading [user_history[uid]] may insert an empty window; no window's
    contents change. *)
Lemma snapshot_hist_entry h uid u :
  snapshot (fst (hist_entry h uid)) u = snapshot h u.
Proof.
  unfold snapshot at 1. unfold hist_entry at 2.
  destruct (dict_get h uid) as [d|] eqn:E; simpl; [reflexivity|].
  destruct (String.eqb uid u) eqn:Eu.
  - apply String.eqb_eq in Eu. subst u.
    unfold hist_entry. rewrite dict_get_set_same.
    unfold snapshot, hist_entry. rewrite E. reflexivity.
  - apply String.eqb_neq in Eu.
    unfold hist_entry. rewrite dict_get_set_other by exact Eu.
    unfold snapshot, hist_entry. destruct (dict_get h u); reflexivity.
Qed.

Lemma deque_append_bounded w t :
  (List.length w <= maxlen)%nat -> (List.length (deque_append w t) <= maxlen)%nat.
Proof.
  intros H. rewrite deque_append_lastn by exact H. rewrite length_lastn. lia.
Qed.

Lemma hist_append_bounded h uid t :
  windows_bounded h -> windows_bounded (hist_append h uid t).
Proof.
  intros H u. destruct (String.eqb u uid) eqn:E.
  - apply String.eqb_eq in E. subst u.
    rewrite snapshot_hist_append. apply deque_append_bounded, H.
  - apply String.eqb_neq in E. rewrite hist_append_other_users by exact E. apply H.
Qed.

(* ================================================================== *)
(** * Beyond the claims: the trigger *)

Lemma trigger_history st uid e :
  history (res_state (trigger st uid e)) = fst (hist_entry (history st) uid).
Proof.
  destruct (gather (predict e) (map sub_mention (snapshot (history st) uid))) as [results|] eqn:Hg.
  - destruct (aggregate results) as [x|agg] eqn:Ha.
    + rewrite (trigger_agg_error st uid e results x Hg Ha). reflexivity.
    + rewrite (trigger_success st uid e results agg Hg Ha). destruct (send_ack e); reflexivity.
  - rewrite (trigger_failed st uid e Hg). reflexivity.
Qed.

(** X4. The prediction trigger changes no user's window, whether the calls
    succeed, a call fails, the aggregation raises, or the send fails. *)
Theorem trigger_keeps_windows st uid e u :
  snapshot (history (res_state (trigger st uid e))) u = snapshot (history st) u.
Proof. rewrite trigger_history. apply snapshot_hist_entry. Qed.




(* ================================================================== *)
(** * Beyond the claims: the backfill [preload_history] *)

Section Preload.
Variable json_loads : string -> option json.

Lemma preload_msgs_app st l1 l2 :
  preload_msgs json_loads st (l1 ++ l2) =
  match preload_msgs json_loads st l1 with
  | Ok st' => preload_msgs json_loads st' l2
  | Crash x st' => Crash x st'
  end.
Proof.
  revert st. induction l1 as [|[m e] l1 IH]; intros st; simpl; [reflexivity|].
  destruct (preload_step json_loads st m e); [apply IH|reflexivity].
Qed.

(** X7. The backfill reads the batches as one stream up to the first empty
    batch: for non-empty batches [bs] followed by an empty one, it processes
    all their messages in order, partition by partition, then prints that
    the history is preloaded; batches after the empty one are never read. *)
Theorem preload_stops_at_empty_batch st bs b rest :
  forallb (fun b => negb (batch_empty b)) bs = true ->
  batch_empty b = true ->
  preload_loop json_loads st (bs ++ b :: rest) =
  match preload_msgs json_loads st (concat (map (@concat (msg * env)) bs)) with
  | Ok st' => Ok (log st' EvPreloadDone)
  | Crash x st' => Crash x st'
  end.
Proof.
  intros Hne Hb. revert st. induction bs as [|b0 bs IH]; intros st; simpl in *.
  - rewrite Hb. reflexivity.
  - apply andb_prop in Hne as [H0 Hne]. apply negb_true_iff in H0. rewrite H0.
    rewrite preload_msgs_app.
    destruct (preload_msgs json_loads st (concat b0)); [apply (IH Hne)|reflexivity].
Qed.
End Preload.

(* ================================================================== *)
(** * Beyond the claims: the two loops side by side, and [main] *)

Section Loops2.
Variable json_loads : string -> option json.

(** X19. In the backfill, a record of the watched chat with a string text
    whose timestamp [datetime.fromtimestamp] rejects raises [ValueError]
    (line 107), which nothing catches: [preload_history] stops there with
    its state unchanged and the later messages are never processed. *)
Theorem preload_date_error_aborts st m e rec t rest :
  parse_value json_loads (value m) = PJson (JObj rec) ->
  in_watch (rec_chat_id rec) = Some true ->
  rec_text rec = JStr t ->
  is_same_local_day e (timestamp m) = None ->
  preload_msgs json_loads st ((m, e) :: rest) = Crash DateRangeError st.
Proof.
  intros Hp Hw Ht Hd. simpl. unfold preload_step.
  rewrite Hp, Hw, Ht. cbn - [is_same_local_day]. rewrite Hd. reflexivity.
Qed.

(** X8. On every message the backfill and the live loop leave the same
    windows: both admit exactly the watched, string-text records from
    today, and the live trigger changes no window. *)
Theorem preload_live_same_windows st m e u :
  snapshot (history (res_state (preload_step json_loads st m e))) u =
  snapshot (history (res_state (live_step json_loads st m e))) u.
Proof.
  unfold preload_step, live_step.
  destruct (parse_value json_loads (value m)) as [x| |j]; try reflexivity.
  destruct j as [| | | | |rec]; try reflexivity.
  destruct (in_watch (rec_chat_id rec)) as [[|]|]; try reflexivity.
  destruct (rec_text rec) as [| | |t| |]; try reflexivity. cbn - [trigger is_same_local_day].
  destruct (is_same_local_day e (timestamp m)) as [[|]|]; try reflexivity;
    (destruct (str_contains BOT_MENTION t); [rewrite trigger_keeps_windows|]; reflexivity).
Qed.

Lemma preload_step_bounded st m e :
  windows_bounded (history st) ->
  windows_bounded (history (res_state (preload_step json_loads st m e))).
Proof.
  intros H u. rewrite preload_live_same_windows.
  unfold live_step.
  destruct (parse_value json_loads (value m)) as [x| |j]; try apply H.
  destruct j as [| | | | |rec]; try apply H.
  destruct (in_watch (rec_chat_id rec)) as [w|]; try apply H.
  destruct (_ || _); [apply H|].
  destruct (rec_text rec) as [| | |t| |]; try apply H.
  destruct (is_same_local_day e (timestamp m)) as [today|]; [|apply H].
  set (st1 := if today then _ else st).
  assert (H1 : windows_bounded (history st1)).
  { unfold st1. destruct today; [apply hist_append_bounded, H|exact H]. }
  destruct (str_contains BOT_MENTION t); [rewrite trigger_keeps_windows|]; apply H1.
Qed.

Lemma live_step_bounded st m e :
  windows_bounded (history st) ->
  windows_bounded (history (res_state (live_step json_loads st m e))).
Proof.
  intros H u. rewrite <- preload_live_same_windows. apply preload_step_bounded, H.
Qed.

Lemma preload_msgs_bounded st ms :
  windows_bounded (history st) ->
  windows_bounded (history (res_state (preload_msgs json_loads st ms))).
Proof.
  revert st. induction ms as [|[m e] ms IH]; intros st H; simpl; [exact H|].
  pose proof (preload_step_bounded st m e H) as H1.
  destruct (preload_step json_loads st m e); [apply IH|]; exact H1.
Qed.

Lemma preload_loop_bounded st bs :
  windows_bounded (history st) ->
  windows_bounded (history (res_state (preload_loop json_loads st bs))).
Proof.
  revert st. induction bs as [|b bs IH]; intros st H; simpl; [exact H|].
  destruct (batch_empty b); [exact H|].
  pose proof (preload_msgs_bounded st (concat b) H) as H1.
  destruct (preload_msgs json_loads st (concat b)); [apply IH|]; exact H1.
Qed.

Lemma live_loop_bounded st ms :
  windows_bounded (history st) ->
  windows_bounded (history (res_state (live_loop json_loads st ms))).
Proof.
  revert st. induction ms as [|[m e] ms IH]; intros st H; simpl; [exact H|].
  pose proof (live_step_bounded st m e H) as H1.
  destruct (live_step json_loads st m e); [apply IH|]; exact H1.
Qed.

(** X9. Over a whole run of [main], backfill then live loop, from the empty
    [user_history], no user's window ever holds more than 10 texts, however
    the run ends. *)
Theorem main_windows_bounded bs live :
  windows_bounded (history (res_state (main_run json_loads bs live))).
Proof.
  unfold main_run.
  pose proof (preload_loop_bounded empty_state bs ltac:(intros u; simpl; lia)) as H.
  destruct (preload_loop json_loads empty_state bs); [apply live_loop_bounded|]; exact H.
Qed.

(** X11. A record from a chat that is not watched (its [chat_id] hashable)
    changes nothing in the live loop, not even the trace, and is printed as
    ignored by the backfill. *)
Theorem unwatched_chat_ignored st m e rec :
  parse_value json_loads (value m) = PJson (JObj rec) ->
  in_watch (rec_chat_id rec) = Some false ->
  live_step json_loads st m e = Ok st /\
  preload_step json_loads st m e = Ok (log st (EvIgnored (JObj rec))).
Proof.
  intros Hp Hw. unfold live_step, preload_step. rewrite Hp, Hw.
  split; [reflexivity|]. destruct (rec_text rec); reflexivity.
Qed.

(** X12. A payload that decodes to JSON that is not an object (a list, a
    string, a number, a boolean or null) raises [AttributeError] on
    [rec.get]: each loop stops at that message with its state unchanged,
    and the messages after it are never processed. *)
Theorem non_object_json_aborts st m e j rest :
  parse_value json_loads (value m) = PJson j ->
  (forall fs, j <> JObj fs) ->
  live_loop json_loads st ((m, e) :: rest) = Crash AttributeError st /\
  preload_msgs json_loads st ((m, e) :: rest) = Crash AttributeError st.
Proof.
  intros Hp Hj. simpl. unfold live_step, preload_step. rewrite Hp.
  destruct j as [| | | | |fs]; try (split; reflexivity).
  exfalso. exact (Hj fs eq_refl).
Qed.

(** X13. A message with a null value (no [decode]) raises
    [AttributeError], whatever [json.loads] does: each loop stops there. *)
Theorem null_value_aborts st m e rest :
  value m = None ->
  live_loop json_loads st ((m, e) :: rest) = Crash AttributeError st /\
  preload_msgs json_loads st ((m, e) :: rest) = Crash AttributeError st.
Proof.
  intros Hv. simpl. unfold live_step, preload_step, parse_value. rewrite Hv.
  split; reflexivity.
Qed.

(** X14. A record whose [chat_id] is a list or an object raises
    [TypeError] (unhashable) on the membership test in either loop: the
    loop stops there with its state unchanged. *)
Theorem unhashable_chat_id_aborts st m e rec rest :
  parse_value json_loads (value m) = PJson (JObj rec) ->
  (exists xs, rec_chat_id rec = JArr xs) \/ (exists fs, rec_chat_id rec = JObj fs) ->
  live_loop json_loads st ((m, e) :: rest) = Crash TypeError st /\
  preload_msgs json_loads st ((m, e) :: rest) = Crash TypeError st.
Proof.
  intros Hp Hc. simpl. unfold live_step, preload_step. rewrite Hp.
  destruct Hc as [[xs Hc]|[fs Hc]]; rewrite Hc; split; reflexivity.
Qed.

(** X15. The live loop keys users by [str(user_id)]: a record whose
    [user_id] is the integer [n] and one whose [user_id] is the string of
    its decimal digits, with the same chat, text and timestamp, have the
    same effect. *)
Theorem int_and_string_user_id_agree st m1 m2 e r1 r2 n :
  parse_value json_loads (value m1) = PJson (JObj r1) ->
  parse_value json_loads (value m2) = PJson (JObj r2) ->
  timestamp m1 = timestamp m2 ->
  rec_chat_id r1 = rec_chat_id r2 ->
  rec_text r1 = rec_text r2 ->
  dict_get r1 "user_id" = Some (JNum n) ->
  dict_get r2 "user_id" = Some (JStr (int_str n)) ->
  live_step json_loads st m1 e = live_step json_loads st m2 e.
Proof.
  intros H1 H2 Ht Hc Hx U1 U2.
  assert (Hu : rec_user_id r1 = rec_user_id r2).
  { unfold rec_user_id, dict_get_default. rewrite U1, U2. reflexivity. }
  unfold live_step. rewrite H1, H2, Ht, Hc, Hx, Hu. reflexivity.
Qed.

End Loops2.

(* ================================================================== *)
(** * Beyond the claims: the cleaning [re.sub] of line 149 *)

Lemma strip_prefix_some p s r :
  strip_prefix p s = Some r -> s = (p ++ r)%string.
Proof.
  revert s. induction p as [|c p IH]; intros s H; simpl in *.
  - congruence.
  - destruct s as [|d s]; [discriminate|].
    destruct (Ascii.eqb c d) eqn:E; [|discriminate].
    apply Ascii.eqb_eq in E. subst d. rewrite (IH s H). reflexivity.
Qed.

Lemma space_unit_in_some us s r :
  space_unit_in us s = Some r -> exists u, In u us /\ s = (u ++ r)%string.
Proof.
  induction us as [|u us IH]; simpl; [discriminate|].
  destruct (strip_prefix u s) as [r'|] eqn:E.
  - intros H. injection H as <-. exists u. split; [left; reflexivity|].
    apply strip_prefix_some, E.
  - intros H. destruct (IH H) as [u' [Hin Hs]]. exists u'. split; [right; exact Hin|exact Hs].
Qed.

Lemma strip_ws_fuel_spec n s :
  (String.length s <= n)%nat ->
  starts_with_space (strip_ws_fuel n s) = false /\
  exists p, s = (p ++ strip_ws_fuel n s)%string.
Proof.
  revert s. induction n as [|n IH]; intros s Hs; simpl.
  - destruct s; [|simpl in Hs; lia]. split; [reflexivity|]. exists ""%string. reflexivity.
  - destruct (space_unit_at s) as [r|] eqn:E.
    + destruct (space_unit_in_some _ _ _ E) as [u [Hu ->]].
      pose proof (space_unit_length u Hu). rewrite str_length_app in Hs.
      destruct (IH r ltac:(lia)) as [Hn [p Hp]]. split; [exact Hn|].
      exists (u ++ p)%string. rewrite str_app_assoc, <- Hp. reflexivity.
    + split; [unfold starts_with_space; rewrite E; reflexivity|].
      exists ""%string. reflexivity.
Qed.

(** X17. Cleaning only ever removes a prefix of the text, and when the text
    starts with the marker, the cleaned text does not start with a
    whitespace character ([\s] is greedy). *)
Theorem sub_mention_suffix_no_leading_space m :
  (exists p, m = (p ++ sub_mention m)%string) /\
  (is_prefix BOT_MENTION m = true -> starts_with_space (sub_mention m) = false).
Proof.
  unfold sub_mention, is_prefix.
  destruct (strip_prefix BOT_MENTION m) as [r|] eqn:E.
  - apply strip_prefix_some in E.
    destruct (strip_ws_fuel_spec (String.length r) r (le_n _)) as [Hn [p Hp]].
    unfold strip_ws. split; [|intros _; exact Hn].
    exists (BOT_MENTION ++ p)%string. rewrite E, str_app_assoc, <- Hp. reflexivity.
  - split; [exists ""%string; reflexivity|discriminate].
Qed.

(* ================================================================== *)
(** * Concrete instances of the properties above *)

Lemma sub_mention_suffix_no_leading_space_witness :
  starts_with_space (sub_mention ("@music_recommender_iss_bot " ++ ch 9 ++ " go")%string) = false.
Proof.
  apply (proj2 (sub_mention_suffix_no_leading_space _)). reflexivity.
Defined.

Lemma preload_stops_at_empty_batch_witness :
  preload_loop json_loads_subset empty_state (bf_batches ++ bf_empty :: bf_rest) =
  match preload_msgs json_loads_subset empty_state
          (concat (map (@concat (msg * env)) bf_batches)) with
  | Ok st' => Ok (log st' EvPreloadDone)
  | Crash x st' => Crash x st'
  end.
Proof.
  apply preload_stops_at_empty_batch; vm_compute; reflexivity.
Defined.

Lemma unwatched_chat_ignored_witness :
  live_step json_loads_subset empty_state other_chat_msg bf_env = Ok empty_state /\
  preload_step json_loads_subset empty_state other_chat_msg bf_env =
    Ok (log empty_state (EvIgnored (JObj other_chat_rec))).
Proof.
  apply unwatched_chat_ignored; vm_compute; reflexivity.
Defined.

Lemma non_object_json_aborts_witness :
  live_loop json_loads_subset empty_state [(list_payload_msg, bf_env); (trig_msg noon_ms, bf_env)] =
    Crash AttributeError empty_state /\
  preload_msgs json_loads_subset empty_state [(list_payload_msg, bf_env); (trig_msg noon_ms, bf_env)] =
    Crash AttributeError empty_state.
Proof.
  apply (non_object_json_aborts json_loads_subset empty_state list_payload_msg bf_env
           (JArr [JNum 1; JNum 2])).
  - vm_compute. reflexivity.
  - discriminate.
Defined.

Lemma null_value_aborts_witness :
  live_loop json_loads_subset empty_state [(null_msg, bf_env); (trig_msg noon_ms, bf_env)] =
    Crash AttributeError empty_state /\
  preload_msgs json_loads_subset empty_state [(null_msg, bf_env); (trig_msg noon_ms, bf_env)] =
    Crash AttributeError empty_state.
Proof.
  apply null_value_aborts. reflexivity.
Defined.

Lemma unhashable_chat_id_aborts_witness :
  live_loop json_loads_subset empty_state [(list_chat_msg, bf_env)] = Crash TypeError empty_state /\
  preload_msgs json_loads_subset empty_state [(list_chat_msg, bf_env)] = Crash TypeError empty_state.
Proof.
  apply (unhashable_chat_id_aborts json_loads_subset empty_state list_chat_msg bf_env list_chat_rec).
  - vm_compute. reflexivity.
  - left. exists [JNum 1]. reflexivity.
Defined.

Lemma int_and_string_user_id_agree_witness :
  live_step json_loads_subset empty_state uid_int_msg bf_env =
  live_step json_loads_subset empty_state uid_str_msg bf_env.
Proof.
  apply (int_and_string_user_id_agree json_loads_subset empty_state uid_int_msg uid_str_msg
           bf_env uid_int_rec uid_str_rec 42); vm_compute; reflexivity.
Defined.


(** The same in the live loop: the [TypeError] of a score ["high"] ends
    the loop, and the next triggering message is never read. *)
Example failed_aggregate_ends_loop :
  live_loop json_loads_subset empty_state
    [(trig_msg noon_ms, env_of score_text true); (trig_msg noon_ms, env_of score_pos true)] =
  Crash TypeError {| history := [("42", [trig_text])];
                     trace := [EvTriggered "42" ["rate these"]; EvCall "rate these"] |}.
Proof. vm_compute. reflexivity. Qed.

Lemma preload_date_error_aborts_witness :
  preload_msgs json_loads_subset empty_state
    [(trig_msg far_future_ms, bf_env); (trig_msg noon_ms, bf_env)] =
  Crash DateRangeError empty_state.
Proof.
  refine (preload_date_error_aborts json_loads_subset empty_state (trig_msg far_future_ms) bf_env
            trig_rec trig_text [(trig_msg noon_ms, bf_env)] _ _ _ _).
  - vm_compute. reflexivity.
  - reflexivity.
  - reflexivity.
  - vm_compute. reflexivity.
Defined.
